(** * Authentication routes ([routes/users.py]): login, refresh, register, me

    A shallow embedding of the four request handlers of [routes/users.py]
    over an explicit model of the document store.  Documents are Python
    dicts, modelled as finite maps from field names to values; a collection
    is the list of its documents in insertion order, so that [find_one]
    returns the first match.  The handlers thread the database through a
    small state-and-exception monad.

    The collaborators imported by the module ([utils], [settings], the
    request validation and [str]) are interfaces: the handlers are written
    against type classes and the theorems hold for every instance. *)

From stdpp Require Import gmap strings pretty list fin_maps.
From Stdlib Require Import ZArith Ascii.

Open Scope string_scope.

(** ** Values and documents *)

(** The values a document field or a token claim can hold.  Python's [None]
    is [VNull]. *)
Inductive value :=
  | VNull
  | VBool (b : bool)
  | VInt (z : Z)
  | VStr (s : string)
  | VOid (n : N)
  | VDate (t : Z).

#[global] Instance value_eq_dec : EqDecision value.
Proof. solve_decision. Defined.

(** A dict with string keys. *)
Abbreviation doc := (gmap string value).

(** [d.get(k)]: the value under [k], [None] when the key is missing. *)
Definition dict_get (d : doc) (k : string) : value :=
  default VNull (d !! k).

(** Truth value of [user] where [user] is a dict or [None]: [None] and the
    empty dict are false. *)
Definition truthy (o : option doc) : bool :=
  match o with
  | None => false
  | Some d => negb (bool_decide (d = ∅))
  end.

(** ** Request models *)

Record UserLogin := { ul_username : string; ul_password : string }.
Record UserCreate := { uc_username : string; uc_password : string }.
Record RefreshTokenRequest := { rq_refresh_token : string }.

(** ** The database *)

(** The literal [statistics_data] built by [register_user]. *)
Record total_distance_data := {
  year_start : Z;
  distance : Z;
  duration : Z;
  count : Z;
  average_pace : Z }.

Record statistics_data := {
  user_id : value;
  weekly : list value;
  monthly : list value;
  yearly : list value;
  total_distance : total_distance_data }.

(** [users] and [statistics] are the two collections; a stored statistics
    document is its [_id] with the inserted data.  [next_oid] is the source of
    fresh [ObjectId]s. *)
Record database := {
  users : list doc;
  statistics : list (value * statistics_data);
  next_oid : N }.

(** ** What a call observes outside the database *)

(** A reading of the clock and of the random source, taken by one call to a
    collaborator ([datetime.utcnow()], a salt, a token's issue time). *)
Record env := { clock : Z; entropy : N }.

Inductive timedelta := Minutes (m : Z).

(** [utils]: token codec and password hasher. *)
Class Utils := {
  create_access_token : doc → timedelta → env → string;
  create_refresh_token : doc → env → string;
  decode_token : string → env → option doc;
  get_password_hash : string → env → string;
  verify_password : string → value → bool }.

(** [settings]. *)
Class Settings := { ACCESS_TOKEN_EXPIRE_MINUTES : Z }.

(** Validation of a JSON body into [UserLogin] ([UserLogin( **body )]) and
    Python's [str] on stored values. *)
Class Runtime := {
  UserLogin_validate : doc → option UserLogin;
  py_str : value → string }.

(** ** Exceptions and the handler monad *)

Inductive exn :=
  | HTTPException (status_code : Z) (detail : string)
                  (headers : option (list (string * string)))
  | KeyError (key : string)
  | ValidationError.

Inductive outcome (A : Type) :=
  | Return (a : A)
  | Raise (e : exn).
Arguments Return {A} a.
Arguments Raise {A} e.

Definition M (A : Type) : Type := database → outcome A * database.

Definition ret {A} (a : A) : M A := λ db, (Return a, db).
Definition raise {A} (e : exn) : M A := λ db, (Raise e, db).
Definition bind {A B} (m : M A) (k : A → M B) : M B :=
  λ db, match m db with
        | (Return a, db') => k a db'
        | (Raise e, db') => (Raise e, db')
        end.

Notation "'let*' x := m 'in' k" := (bind m (λ x, k))
  (at level 10, x name, m at level 100, k at level 200, only parsing).
Notation "'run' m 'in' k" := (bind m (λ _, k))
  (at level 10, m at level 100, k at level 200, only parsing).

(** [d[k]]: raises [KeyError] when the key is missing. *)
Definition getitem {A} (d : doc) (k : string) (cont : value → M A) : M A :=
  match d !! k with
  | Some v => cont v
  | None => raise (KeyError k)
  end.

(** ** Collection operations *)

(** A filter [{k: v}] selects the documents whose field [k] equals [v]. *)
Definition matches (k : string) (v : value) (d : doc) : Prop := d !! k = Some v.

#[global] Instance matches_dec k v d : Decision (matches k v d).
Proof. unfold matches. apply _. Defined.

(** [db.users.find_one({k: v})]: the first matching document. *)
Definition find_first (k : string) (v : value) (l : list doc) : option doc :=
  snd <$> list_find (matches k v) l.

Definition users_find_one (k : string) (v : value) : M (option doc) :=
  λ db, (Return (find_first k v (users db)), db).

(** [db.users.update_one({k: v}, {"$set": {k': x}})]: the first matching
    document gets field [k'] set to [x]; nothing changes without a match. *)
Definition update_first (k : string) (v : value) (k' : string) (x : value)
    (l : list doc) : list doc :=
  match list_find (matches k v) l with
  | Some (i, d) => <[i := <[k' := x]> d]> l
  | None => l
  end.

Definition users_update_one (k : string) (v : value) (k' : string) (x : value)
    : M unit :=
  λ db, (Return tt,
         {| users := update_first k v k' x (users db);
            statistics := statistics db;
            next_oid := next_oid db |}).

(** [db.users.insert_one(d)]: a document without [_id] gets a fresh
    [ObjectId]; the result is the inserted [_id]. *)
Definition users_insert_one (d : doc) : M value :=
  λ db, match d !! "_id" with
        | Some i =>
            (Return i,
             {| users := users db ++ [d];
                statistics := statistics db;
                next_oid := next_oid db |})
        | None =>
            let i := VOid (next_oid db) in
            (Return i,
             {| users := users db ++ [<["_id" := i]> d];
                statistics := statistics db;
                next_oid := N.succ (next_oid db) |})
        end.

(** [db.statistics.insert_one(s)]. *)
Definition statistics_insert_one (s : statistics_data) : M value :=
  λ db, let i := VOid (next_oid db) in
        (Return i,
         {| users := users db;
            statistics := statistics db ++ [(i, s)];
            next_oid := N.succ (next_oid db) |}).

(** ** The handlers *)

Definition bearer_header : option (list (string * string)) :=
  Some [("WWW-Authenticate", "Bearer")].

Definition HTTP_401_UNAUTHORIZED : Z := 401.

Section Handlers.
Context `{Utils, Settings, Runtime}.

(** [POST /login] *)
Definition login_for_access_token (body : doc) (e_access e_refresh : env)
    : M doc :=
  match UserLogin_validate body with
  | None => raise ValidationError
  | Some user_login =>
    let* user := users_find_one "username" (VStr (ul_username user_login)) in
    let unauthorized :=
      raise (HTTPException HTTP_401_UNAUTHORIZED
               "Incorrect username or password" bearer_header) in
    match user with
    | None => unauthorized
    | Some user =>
      if negb (truthy (Some user)) then unauthorized else
      getitem user "password" (λ stored,
      if negb (verify_password (ul_password user_login) stored)
      then unauthorized else
      let access_token_expires := Minutes ACCESS_TOKEN_EXPIRE_MINUTES in
      getitem user "username" (λ sub,
      let access_token :=
        create_access_token {[ "sub" := sub ]} access_token_expires e_access in
      getitem user "username" (λ sub',
      let refresh_token := create_refresh_token {[ "sub" := sub' ]} e_refresh in
      getitem user "_id" (λ id,
      run users_update_one "_id" id "refresh_token" (VStr refresh_token) in
      getitem user "_id" (λ id',
      ret (<[ "access_token" := VStr access_token ]>
           (<[ "refresh_token" := VStr refresh_token ]>
            (<[ "token_type" := VStr "bearer" ]>
             {[ "user_id" := VStr (py_str id') ]}))))))))
    end
  end.

(** [POST /refresh] *)
Definition refresh_access_token (request : RefreshTokenRequest)
    (e_decode e_access : env) : M doc :=
  let invalid :=
    raise (HTTPException HTTP_401_UNAUTHORIZED
             "Invalid refresh token" bearer_header) in
  match decode_token (rq_refresh_token request) e_decode with
  | None => invalid
  | Some payload =>
    let username := dict_get payload "sub" in
    if bool_decide (username = VNull) then invalid else
    let* user := users_find_one "username" username in
    match user with
    | None => invalid
    | Some user =>
      if negb (truthy (Some user))
         || negb (bool_decide (dict_get user "refresh_token"
                               = VStr (rq_refresh_token request)))
      then invalid else
      let access_token_expires := Minutes ACCESS_TOKEN_EXPIRE_MINUTES in
      getitem user "username" (λ sub,
      let access_token :=
        create_access_token {[ "sub" := sub ]} access_token_expires e_access in
      ret (<[ "access_token" := VStr access_token ]>
           (<[ "refresh_token" := VStr (rq_refresh_token request) ]>
            {[ "token_type" := VStr "bearer" ]})))
    end
  end.

(** [POST /register] *)
Definition register_user (user : UserCreate) (e_hash e_created e_stats : env)
    : M doc :=
  let* existing := users_find_one "username" (VStr (uc_username user)) in
  if truthy existing
  then raise (HTTPException 400 "Username already registered" None)
  else
    let hashed_password := get_password_hash (uc_password user) e_hash in
    let user_data : doc :=
      <[ "username" := VStr (uc_username user) ]>
        {[ "password" := VStr (uc_password user) ]} in
    let user_data := <[ "password" := VStr hashed_password ]> user_data in
    let user_data := <[ "created_at" := VDate (clock e_created) ]> user_data in
    let* inserted_id := users_insert_one user_data in
    let statistics_data :=
      {| user_id := inserted_id;
         weekly := [];
         monthly := [];
         yearly := [];
         total_distance :=
           {| year_start := clock e_stats;
              distance := 0;
              duration := 0;
              count := 0;
              average_pace := 0 |} |} in
    run statistics_insert_one statistics_data in
    ret (<[ "id" := VStr (py_str inserted_id) ]>
         {[ "username" := VStr (uc_username user) ]}).

(** [GET /me]: [token] is the claim set decoded upstream, or [None]. *)
Definition read_users_me (token : option doc) : M doc :=
  let invalid :=
    raise (HTTPException HTTP_401_UNAUTHORIZED "Invalid token" bearer_header) in
  match token with
  | None => invalid
  | Some token =>
    let username := dict_get token "sub" in
    if bool_decide (username = VNull) then invalid else
    let* user := users_find_one "username" username in
    match user with
    | None => invalid
    | Some user =>
      if negb (truthy (Some user)) then invalid else ret user
    end
  end.

End Handlers.

(** ** The response model of [GET /me] *)

(** Modelled from the spec: [models.User], the [response_model] of
    [GET /me], is declared outside this module.  The spec gives its fields:
    the identifier, the username and the creation time.  The framework
    serialises the handler's return value through the response model, which
    keeps the declared fields and drops every other key. *)
Definition User_fields : list string := ["_id"; "username"; "created_at"].

(** Serialisation through a response model with the given fields. *)
Definition response_model (fields : list string) (d : doc) : doc :=
  filter (λ kv, kv.1 ∈ fields) d.

(** [@router.get("/me", response_model=User)] *)
Definition me_endpoint (token : option doc) : M doc :=
  let* user := read_users_me token in
  ret (response_model User_fields user).

(** ** Store invariant *)

(** The store keeps [_id] unique within a collection. *)
Definition oids (l : list doc) : list value := omap (λ d, d !! "_id") l.

Definition unique_ids (l : list doc) : Prop := NoDup (oids l).

#[global] Instance unique_ids_dec l : Decision (unique_ids l).
Proof. unfold unique_ids. apply _. Defined.

(** The usernames held by a collection, in document order. *)
Definition usernames (l : list doc) : list value :=
  omap (λ d, d !! "username") l.

Definition unique_usernames (l : list doc) : Prop := NoDup (usernames l).

#[global] Instance unique_usernames_dec l : Decision (unique_usernames l).
Proof. unfold unique_usernames. apply _. Defined.

(** An [ObjectId] is issued when it lies below the identifier source; other
    kinds of identifier never meet a fresh [ObjectId]. *)
Definition issued (next : N) (v : value) : Prop :=
  match v with
  | VOid n => (n < next)%N
  | _ => True
  end.

#[global] Instance issued_dec next v : Decision (issued next v).
Proof. destruct v; simpl; apply _. Defined.

Definition ids_issued (db : database) : Prop :=
  Forall (issued (next_oid db)) (oids (users db)).

#[global] Instance ids_issued_dec db : Decision (ids_issued db).
Proof. unfold ids_issued. apply _. Defined.

(** The statistics documents refer, one each and in order, to the user
    documents. *)
Definition statistics_linked (db : database) : Prop :=
  (λ s, user_id s.2) <$> statistics db = oids (users db).

#[global] Instance statistics_linked_dec db : Decision (statistics_linked db).
Proof. unfold statistics_linked. apply _. Defined.

Definition store_invariant (db : database) : Prop :=
  unique_ids (users db) ∧ ids_issued db ∧
  unique_usernames (users db) ∧ statistics_linked db.

#[global] Instance store_invariant_dec db : Decision (store_invariant db).
Proof. unfold store_invariant. apply _. Defined.

(** ** Serving requests one after the other *)

(** A request to one of the four routes, with the readings its handler
    takes. *)
Inductive request :=
  | PostLogin (body : doc) (e_access e_refresh : env)
  | PostRefresh (request : RefreshTokenRequest) (e_decode e_access : env)
  | PostRegister (user : UserCreate) (e_hash e_created e_stats : env)
  | GetMe (token : option doc).


Section Server.
Context `{Utils, Settings, Runtime}.



End Server.

(** Modelled from the spec: the token codec lives in [utils], outside this
    module.  The spec describes it as signing and verifying bearer tokens
    that carry a subject claim: whenever a token minted for some claims
    decodes, the decoded claim set carries the subject it was minted with.
    Nothing is assumed on when decoding succeeds (expiry), nor on two mints
    giving different strings. *)
Class CodecSound `{Utils} : Prop := {
  access_subject : ∀ data exp e e' claims,
    decode_token (create_access_token data exp e) e' = Some claims →
    claims !! "sub" = data !! "sub";
  refresh_subject : ∀ data e e' claims,
    decode_token (create_refresh_token data e) e' = Some claims →
    claims !! "sub" = data !! "sub" }.

(** Outcome of a handler run. *)
Definition succeeds {A} (r : outcome A * database) : Prop :=
  match r.1 with Return _ => True | Raise _ => False end.

(** ** Exceptions and responses named in the statements *)

Definition invalid_refresh_token : exn :=
  HTTPException 401 "Invalid refresh token" bearer_header.

Definition incorrect_credentials : exn :=
  HTTPException 401 "Incorrect username or password" bearer_header.

Definition invalid_token : exn :=
  HTTPException 401 "Invalid token" bearer_header.

Definition already_registered : exn :=
  HTTPException 400 "Username already registered" None.

(** The dict returned by [refresh_access_token]. *)
Definition refresh_response (access_token refresh_token : string) : doc :=
  <[ "access_token" := VStr access_token ]>
  (<[ "refresh_token" := VStr refresh_token ]>
   {[ "token_type" := VStr "bearer" ]}).

(** The dict returned by [login_for_access_token]. *)
Definition login_response (access_token refresh_token user_id : string) : doc :=
  <[ "access_token" := VStr access_token ]>
  (<[ "refresh_token" := VStr refresh_token ]>
   (<[ "token_type" := VStr "bearer" ]>
    {[ "user_id" := VStr user_id ]})).

(** The user document stored by [register_user]. *)
Definition user_record (id : value) (username hash : string) (created_at : Z)
    : doc :=
  <[ "_id" := id ]>
  (<[ "username" := VStr username ]>
   (<[ "password" := VStr hash ]>
    {[ "created_at" := VDate created_at ]})).

(** The statistics document stored by [register_user]. *)
Definition initial_statistics (uid : value) (stamp : Z) : statistics_data :=
  {| user_id := uid;
     weekly := [];
     monthly := [];
     yearly := [];
     total_distance :=
       {| year_start := stamp;
          distance := 0;
          duration := 0;
          count := 0;
          average_pace := 0 |} |}.

(** The dict returned by [register_user]. *)
Definition register_response (id username : string) : doc :=
  <[ "id" := VStr id ]> {[ "username" := VStr username ]}.

(** ** A concrete instance of the collaborators

    A small codec and hasher used to run the handlers on concrete stores.
    The clock counts milliseconds.  A token is a kind letter, the last digit
    of the second of issue, a colon and the subject, so that the codec, like
    one that signs an expiry in whole seconds, mints the same string twice
    within a second; the hash is the plaintext behind a marker. *)
Module Toy.

Definition sub_of (data : doc) : string :=
  match data !! "sub" with
  | Some (VStr s) => s
  | _ => EmptyString
  end.

Definition stamp (e : env) : ascii :=
  ascii_of_N (48 + Z.to_N ((clock e `div` 1000) `mod` 10)).

Definition token (kind : ascii) (e : env) (sub : string) : string :=
  String kind (String (stamp e) (String ":" sub)).

Definition decode (tok : string) : option doc :=
  match tok with
  | String _ (String _ (String c s)) =>
      if bool_decide (c = ":"%char) && negb (bool_decide (s = EmptyString))
      then Some {[ "sub" := VStr s ]} else None
  | _ => None
  end.

Definition utils : Utils := {|
  create_access_token data _ e := token "a" e (sub_of data);
  create_refresh_token data e := token "r" e (sub_of data);
  decode_token tok _ := decode tok;
  get_password_hash pw _ := "h:" +:+ pw;
  verify_password pw stored := bool_decide (stored = VStr ("h:" +:+ pw)) |}.

Definition settings : Settings := {| ACCESS_TOKEN_EXPIRE_MINUTES := 30 |}.

Definition validate (body : doc) : option UserLogin :=
  match body !! "username", body !! "password" with
  | Some (VStr u), Some (VStr p) => Some {| ul_username := u; ul_password := p |}
  | _, _ => None
  end.

Definition str (v : value) : string :=
  match v with
  | VStr s => s
  | VOid n => pretty n
  | _ => "?"
  end.

Definition runtime : Runtime := {|
  UserLogin_validate := validate;
  py_str := str |}.

Definition at_ (t : Z) : env := {| clock := t; entropy := 0 |}.

(** A store holding one registered user, [alice]. *)
Definition alice : doc :=
  <[ "_id" := VOid 0 ]>
  (<[ "username" := VStr "alice" ]>
   (<[ "password" := VStr "h:p@ss" ]>
    {[ "created_at" := VDate 1000 ]})).

Definition db0 : database :=
  {| users := [alice]; statistics := []; next_oid := 2 |}.

(** The same store once [alice] has logged in during second 1. *)
Definition db1 : database :=
  {| users := [<[ "refresh_token" := VStr "r1:alice" ]> alice];
     statistics := [];
     next_oid := 2 |}.

(** The same store once [alice] has logged in again during second 2. *)
Definition db2 : database :=
  {| users := [<[ "refresh_token" := VStr "r2:alice" ]> alice];
     statistics := [];
     next_oid := 2 |}.

(** The store as registration of [alice] on an empty store leaves it. *)
Definition db_alice : database :=
  {| users := [alice];
     statistics := [(VOid 1, initial_statistics (VOid 0) 1000)];
     next_oid := 2 |}.

(** A second user, [bob], logged in during second 7, beside [alice]. *)
Definition bob : doc :=
  <[ "_id" := VOid 2 ]>
  (<[ "username" := VStr "bob" ]>
   (<[ "password" := VStr "h:hunter2" ]>
    (<[ "refresh_token" := VStr "r7:bob" ]>
     {[ "created_at" := VDate 6000 ]}))).

Definition db_two : database :=
  {| users := [alice; bob];
     statistics := [(VOid 1, initial_statistics (VOid 0) 1000);
                    (VOid 3, initial_statistics (VOid 2) 6000)];
     next_oid := 4 |}.

(** A record imported without a [password] field. *)
Definition guest : doc :=
  <[ "_id" := VOid 0 ]> {[ "username" := VStr "guest" ]}.

Definition db_guest : database :=
  {| users := [guest]; statistics := []; next_oid := 1 |}.

Definition credentials (u p : string) : doc :=
  <[ "username" := VStr u ]> {[ "password" := VStr p ]}.

Definition login := @login_for_access_token utils settings runtime.
Definition refresh := @refresh_access_token utils settings.
Definition register := @register_user utils runtime.

End Toy.

(** * Properties *)

(** ** The collection operations *)

Lemma find_first_Some k v l d :
  find_first k v l = Some d ↔ ∃ i, list_find (matches k v) l = Some (i, d).
Proof.
  unfold find_first. split.
  - destruct (list_find _ l) as [[i d']|] eqn:E; simpl; [|done].
    intros [= ->]. eauto.
  - intros [i ->]. done.
Qed.

Lemma find_first_None k v l :
  find_first k v l = None ↔ ∀ d, d ∈ l → d !! k ≠ Some v.
Proof.
  unfold find_first. rewrite fmap_None, list_find_None, Forall_forall. done.
Qed.

Lemma find_first_matches k v l d :
  find_first k v l = Some d → d ∈ l ∧ d !! k = Some v.
Proof.
  intros [i Hi]%find_first_Some.
  apply list_find_Some in Hi as (Hl & Hm & _).
  split; [by eapply list_elem_of_lookup_2 | done].
Qed.

Lemma find_first_elem k v l d :
  d ∈ l → d !! k = Some v → is_Some (find_first k v l).
Proof.
  intros Hin Hm. destruct (find_first k v l) eqn:E; [eauto|].
  rewrite find_first_None in E. by destruct (E d Hin).
Qed.

(** A document that matched a filter has a field, so it is a true value. *)
Lemma matches_truthy k v d : d !! k = Some v → truthy (Some d) = true.
Proof.
  intros Hk. unfold truthy. rewrite bool_decide_eq_false_2; [done|].
  intros ->. by rewrite lookup_empty in Hk.
Qed.

Lemma find_first_truthy k v l d :
  find_first k v l = Some d → truthy (Some d) = true.
Proof. intros [_ Hm]%find_first_matches. by eapply matches_truthy. Qed.

Lemma dict_get_not_null (d : doc) k :
  dict_get d k ≠ VNull → d !! k = Some (dict_get d k).
Proof. unfold dict_get. destruct (d !! k); simpl; done. Qed.

Lemma dict_get_inv (d : doc) k v :
  dict_get d k = v → v ≠ VNull → d !! k = Some v.
Proof. intros <-. apply dict_get_not_null. Qed.

Lemma dict_get_Some (d : doc) k v : d !! k = Some v → dict_get d k = v.
Proof. unfold dict_get. by intros ->. Qed.

(** ** Refresh *)

Section Refresh.
Context `{Utils, Settings}.

(** One equation for the whole handler: the outcome is decided by the
    decoded payload, the first user with the subject's name and the
    comparison of its stored token with the presented string. *)
Lemma refresh_run request e1 e2 db :
  refresh_access_token request e1 e2 db =
  (match decode_token (rq_refresh_token request) e1 with
   | None => Raise invalid_refresh_token
   | Some payload =>
     if bool_decide (dict_get payload "sub" = VNull)
     then Raise invalid_refresh_token
     else match find_first "username" (dict_get payload "sub") (users db) with
          | None => Raise invalid_refresh_token
          | Some user =>
            if bool_decide (dict_get user "refresh_token"
                            = VStr (rq_refresh_token request))
            then Return (refresh_response
                           (create_access_token {[ "sub" := dict_get payload "sub" ]}
                              (Minutes ACCESS_TOKEN_EXPIRE_MINUTES) e2)
                           (rq_refresh_token request))
            else Raise invalid_refresh_token
          end
   end, db).
Proof.
  unfold refresh_access_token.
  destruct (decode_token _ e1) as [payload|]; [|done].
  case_bool_decide as Hsub; [done|].
  unfold bind, users_find_one.
  destruct (find_first _ _ _) as [user|] eqn:Hfind; [|done].
  rewrite (find_first_truthy _ _ _ _ Hfind). simpl.
  case_bool_decide as Htok; simpl; [|done].
  apply find_first_matches in Hfind as [_ Hname].
  unfold getitem. rewrite Hname. done.
Qed.

(** C10.  A refresh request, accepted or rejected, leaves the store as it
    found it: the user collection, the statistics collection and the
    identifier source are those of the call's initial state. *)
Theorem refresh_leaves_store_unchanged request e1 e2 db :
  (refresh_access_token request e1 e2 db).2 = db.
Proof. by rewrite refresh_run. Qed.

(** C1.  A refresh succeeds only when the first user record with the
    token's subject as username exists and stores exactly the presented
    string as its [refresh_token]; when the token decodes with a subject and
    that record is absent or stores anything else (another token, nothing),
    the handler raises the [401] "Invalid refresh token". *)
Theorem refresh_requires_stored_token request e1 e2 db :
  let tok := rq_refresh_token request in
  (succeeds (refresh_access_token request e1 e2 db) →
   ∃ payload user,
     decode_token tok e1 = Some payload ∧
     find_first "username" (dict_get payload "sub") (users db) = Some user ∧
     user !! "refresh_token" = Some (VStr tok))
  ∧
  (∀ payload,
     decode_token tok e1 = Some payload →
     dict_get payload "sub" ≠ VNull →
     (find_first "username" (dict_get payload "sub") (users db) = None ∨
      ∃ user,
        find_first "username" (dict_get payload "sub") (users db) = Some user ∧
        user !! "refresh_token" ≠ Some (VStr tok)) →
     refresh_access_token request e1 e2 db = (Raise invalid_refresh_token, db)).
Proof.
  intros tok. subst tok. rewrite refresh_run. split.
  - unfold succeeds. simpl.
    destruct (decode_token _ e1) as [payload|]; [|done].
    case_bool_decide as Hsub; [done|].
    destruct (find_first _ _ _) as [user|] eqn:Hfind; [|done].
    case_bool_decide as Htok; [|done].
    intros _. exists payload, user. repeat split; [done|].
    by apply dict_get_inv.
  - intros payload -> Hsub Hcase.
    rewrite bool_decide_eq_false_2 by done.
    destruct Hcase as [->|(user & -> & Hne)]; [done|].
    rewrite bool_decide_eq_false_2; [done|].
    intros Heq. apply Hne. by apply dict_get_inv.
Qed.

(** C8.  When the presented token decodes, carries a subject, and equals the
    token stored on the first user with that name, the handler returns the
    access token minted for the user's username with the configured expiry
    together with the presented refresh token itself; whatever the codec
    decodes from that access token carries the username as subject. *)
Theorem refresh_returns_same_refresh_token `{!CodecSound}
    request e1 e2 db payload user :
  let tok := rq_refresh_token request in
  decode_token tok e1 = Some payload →
  dict_get payload "sub" ≠ VNull →
  find_first "username" (dict_get payload "sub") (users db) = Some user →
  user !! "refresh_token" = Some (VStr tok) →
  ∃ username access,
    user !! "username" = Some username ∧
    access = create_access_token {[ "sub" := username ]}
               (Minutes ACCESS_TOKEN_EXPIRE_MINUTES) e2 ∧
    refresh_access_token request e1 e2 db
      = (Return (refresh_response access tok), db) ∧
    ∀ e' claims, decode_token access e' = Some claims →
                 claims !! "sub" = Some username.
Proof.
  intros tok Hdec Hsub Hfind Hstored. subst tok.
  exists (dict_get payload "sub"), (create_access_token {[ "sub" := dict_get payload "sub" ]}
               (Minutes ACCESS_TOKEN_EXPIRE_MINUTES) e2).
  split; [by apply find_first_matches in Hfind as [_ ?]|].
  split; [done|]. split.
  - rewrite refresh_run, Hdec, bool_decide_eq_false_2, Hfind by done.
    rewrite (dict_get_Some _ _ _ Hstored). by rewrite bool_decide_eq_true_2.
  - intros e' claims Hclaims. apply access_subject in Hclaims.
    by rewrite Hclaims, lookup_singleton_eq.
Qed.

End Refresh.

(** ** Register *)

Section Register.
Context `{Utils, Runtime}.

(** The dict built by [user.dict()] and the two assignments that follow it
    holds the hash where the plaintext was. *)
Lemma user_data_fields (u p h : string) (t : Z) :
  (<[ "created_at" := VDate t ]>
   (<[ "password" := VStr h ]>
    (<[ "username" := VStr u ]> ({[ "password" := VStr p ]} : doc))))
  = <[ "username" := VStr u ]>
    (<[ "password" := VStr h ]> {[ "created_at" := VDate t ]}).
Proof.
  apply map_eq. intros k.
  destruct (decide (k = "created_at")) as [->|]; [by simplify_map_eq|].
  destruct (decide (k = "password")) as [->|]; [by simplify_map_eq|].
  destruct (decide (k = "username")) as [->|]; by simplify_map_eq.
Qed.

Lemma register_run user e1 e2 e3 db :
  register_user user e1 e2 e3 db =
  if truthy (find_first "username" (VStr (uc_username user)) (users db))
  then (Raise already_registered, db)
  else
    let id := VOid (next_oid db) in
    (Return (register_response (py_str id) (uc_username user)),
     {| users := users db ++
                 [user_record id (uc_username user)
                    (get_password_hash (uc_password user) e1) (clock e2)];
        statistics := statistics db ++
                      [(VOid (N.succ (next_oid db)),
                        initial_statistics id (clock e3))];
        next_oid := N.succ (N.succ (next_oid db)) |}).
Proof.
  unfold register_user, bind, users_find_one.
  destruct (truthy _); [done|].
  rewrite user_data_fields. unfold users_insert_one.
  rewrite lookup_insert_ne, lookup_insert_ne, lookup_singleton_ne by done.
  done.
Qed.

(** C6.  Registering a username that some stored user record already
    carries raises the [400] "Username already registered" and leaves the
    whole store (users, statistics, identifier source) as it was. *)
Theorem register_existing_username_rejected user e1 e2 e3 db d :
  d ∈ users db →
  d !! "username" = Some (VStr (uc_username user)) →
  register_user user e1 e2 e3 db = (Raise already_registered, db).
Proof.
  intros Hin Hname. rewrite register_run.
  destruct (find_first_elem _ _ _ _ Hin Hname) as [d' Hd'].
  by rewrite Hd', (find_first_truthy _ _ _ _ Hd').
Qed.

(** C7.  Registering a username that no stored record carries appends one
    user record, whose [password] field is the hash of the plaintext and
    whose [created_at] is the clock reading of the call, appends one
    statistics record for it with empty weekly, monthly and yearly buckets
    and a zeroed total stamped with the clock reading taken for it, and
    returns the new identifier and the username.  The plaintext reaches the
    store only through the hash: two passwords with the same hash leave the
    same store. *)
Theorem register_creates_user_and_statistics user e1 e2 e3 db :
  (∀ d, d ∈ users db → d !! "username" ≠ Some (VStr (uc_username user))) →
  let id := VOid (next_oid db) in
  let hash := get_password_hash (uc_password user) e1 in
  register_user user e1 e2 e3 db =
    (Return (register_response (py_str id) (uc_username user)),
     {| users := users db ++
                 [user_record id (uc_username user) hash (clock e2)];
        statistics := statistics db ++
                      [(VOid (N.succ (next_oid db)),
                        initial_statistics id (clock e3))];
        next_oid := N.succ (N.succ (next_oid db)) |})
  ∧ user_record id (uc_username user) hash (clock e2) !! "password"
    = Some (VStr hash)
  ∧ ∀ user',
      uc_username user' = uc_username user →
      get_password_hash (uc_password user') e1 = hash →
      register_user user' e1 e2 e3 db = register_user user e1 e2 e3 db.
Proof.
  intros Hfresh id hash. split; [|split].
  - rewrite register_run.
    apply find_first_None in Hfresh. by rewrite Hfresh.
  - done.
  - intros user' Hname Hhash. rewrite !register_run, Hname, Hhash. done.
Qed.

End Register.

(** ** Who am I *)

Lemma read_users_me_run token db :
  read_users_me token db =
  (match token with
   | None => Raise invalid_token
   | Some claims =>
     if bool_decide (dict_get claims "sub" = VNull) then Raise invalid_token
     else match find_first "username" (dict_get claims "sub") (users db) with
          | None => Raise invalid_token
          | Some user => Return user
          end
   end, db).
Proof.
  unfold read_users_me. destruct token as [claims|]; [|done].
  case_bool_decide; [done|].
  unfold bind, users_find_one.
  destruct (find_first _ _ _) as [user|] eqn:Hfind; [|done].
  by rewrite (find_first_truthy _ _ _ _ Hfind).
Qed.

(** C9.  With no decoded token, with a claim set lacking a subject, or with
    a subject that names no stored user, the handler raises one and the same
    [401] "Invalid token" and leaves the store untouched. *)
Theorem read_users_me_rejects token db :
  token = None ∨
  (∃ claims, token = Some claims ∧ dict_get claims "sub" = VNull) ∨
  (∃ claims, token = Some claims ∧
     find_first "username" (dict_get claims "sub") (users db) = None) →
  read_users_me token db = (Raise invalid_token, db).
Proof.
  rewrite read_users_me_run.
  intros [->|[(claims & -> & Hsub)|(claims & -> & Hfind)]]; [done| |].
  - by rewrite bool_decide_eq_true_2.
  - rewrite Hfind. by case_bool_decide.
Qed.

Lemma response_model_lookup fields (d : doc) k :
  response_model fields d !! k = if decide (k ∈ fields) then d !! k else None.
Proof.
  unfold response_model. case_decide as Hk.
  - destruct (d !! k) as [v|] eqn:E.
    + by apply map_lookup_filter_Some.
    + apply map_lookup_filter_None. left. done.
  - apply map_lookup_filter_None. right. intros v _. done.
Qed.

(** The value the handler itself returns is the stored record, whole. *)
Lemma read_users_me_returns_record token db user db' :
  read_users_me token db = (Return user, db') →
  db' = db ∧ ∃ claims, token = Some claims ∧
    find_first "username" (dict_get claims "sub") (users db) = Some user.
Proof.
  rewrite read_users_me_run. destruct token as [claims|]; [|done].
  case_bool_decide; [done|].
  destruct (find_first _ _ _) as [u|] eqn:Hfind; [|done].
  intros [= -> ->]. eauto.
Qed.

(** C2.  The profile sent for a successful [GET /me] holds no field besides
    the identifier, the username and the creation time, each with the value
    of the stored record; it has no [password] and no [refresh_token]
    field. *)
Theorem me_profile_has_public_fields_only token db profile db' :
  me_endpoint token db = (Return profile, db') →
  (∀ k, is_Some (profile !! k) →
        k = "_id" ∨ k = "username" ∨ k = "created_at")
  ∧ profile !! "password" = None
  ∧ profile !! "refresh_token" = None
  ∧ ∃ user,
      read_users_me token db = (Return user, db') ∧
      profile !! "_id" = user !! "_id" ∧
      profile !! "username" = user !! "username" ∧
      profile !! "created_at" = user !! "created_at".
Proof.
  unfold me_endpoint, bind.
  destruct (read_users_me token db) as [[user|e] db''] eqn:Hme; [|done].
  unfold ret. intros [= <- ->].
  split; [|split; [|split]].
  - intros k. rewrite response_model_lookup. case_decide as Hk.
    + intros _. unfold User_fields in Hk.
      repeat (apply elem_of_cons in Hk as [->|Hk]; [tauto|]).
      by apply elem_of_nil in Hk.
    + by intros [? ?].
  - by rewrite response_model_lookup.
  - by rewrite response_model_lookup.
  - exists user. rewrite !response_model_lookup. done.
Qed.

(** ** Updating one document in place *)

Lemma list_find_cons_matches k v (d : doc) l :
  list_find (matches k v) (d :: l) =
  if decide (matches k v d) then Some (0, d)
  else prod_map S id <$> list_find (matches k v) l.
Proof. done. Qed.

Lemma elem_of_oids l (d : doc) v : d ∈ l → d !! "_id" = Some v → v ∈ oids l.
Proof.
  intros Hin Hid. unfold oids. apply list_elem_of_omap. eauto.
Qed.

(** With unique identifiers, a filter on [_id] selects the document that
    carries it, wherever it sits in the collection. *)
Lemma unique_ids_find l i (d : doc) v :
  unique_ids l → l !! i = Some d → d !! "_id" = Some v →
  list_find (matches "_id" v) l = Some (i, d).
Proof.
  unfold unique_ids. revert i.
  induction l as [|d0 l IH]; intros i Hnd Hl Hid; [done|].
  rewrite list_find_cons_matches. destruct i as [|i]; simpl in Hl.
  - injection Hl as ->. by rewrite decide_True.
  - unfold oids in Hnd. simpl in Hnd.
    destruct (d0 !! "_id") as [v0|] eqn:Hd0; simpl in Hnd.
    + apply NoDup_cons in Hnd as [Hnotin Hnd].
      rewrite decide_False.
      * by rewrite (IH i Hnd Hl Hid).
      * unfold matches. rewrite Hd0. intros [= ->]. apply Hnotin.
        eapply elem_of_oids; [|done]. by eapply list_elem_of_lookup_2.
    + rewrite decide_False by (unfold matches; by rewrite Hd0).
      by rewrite (IH i Hnd Hl Hid).
Qed.

Lemma oids_set_field l i (d : doc) k x :
  l !! i = Some d → k ≠ "_id" → oids (<[i := <[k := x]> d]> l) = oids l.
Proof.
  unfold oids. revert i. induction l as [|d0 l IH]; intros i Hl Hk; [done|].
  destruct i as [|i]; simpl in Hl.
  - injection Hl as ->. cbn. by rewrite lookup_insert_ne.
  - specialize (IH i Hl Hk). cbn in *.
    destruct (d0 !! "_id"); [f_equal|]; exact IH.
Qed.

(** Setting a field other than the one filtered on keeps the first match in
    place. *)
Lemma list_find_set_field k v l i (d : doc) k' x :
  list_find (matches k v) l = Some (i, d) → k ≠ k' →
  list_find (matches k v) (<[i := <[k' := x]> d]> l)
  = Some (i, <[k' := x]> d).
Proof.
  intros (Hl & Hm & Hbefore)%list_find_Some Hk.
  apply list_find_Some. split; [|split].
  - apply list_lookup_insert_eq. by eapply lookup_lt_Some.
  - unfold matches. by rewrite lookup_insert_ne.
  - intros j y Hj Hlt. rewrite list_lookup_insert_ne in Hj by lia. eauto.
Qed.

Lemma update_first_by_id l i (d : doc) v k x :
  unique_ids l → l !! i = Some d → d !! "_id" = Some v →
  update_first "_id" v k x l = <[i := <[k := x]> d]> l.
Proof.
  intros Hnd Hl Hid. unfold update_first.
  by rewrite (unique_ids_find _ _ _ _ Hnd Hl Hid).
Qed.

(** ** Login *)

Section Login.
Context `{Utils, Settings, Runtime}.

(** One equation for the whole handler. *)
Lemma login_run body e1 e2 db :
  login_for_access_token body e1 e2 db =
  match UserLogin_validate body with
  | None => (Raise ValidationError, db)
  | Some ul =>
    let sub := VStr (ul_username ul) in
    match find_first "username" sub (users db) with
    | None => (Raise incorrect_credentials, db)
    | Some user =>
      match user !! "password" with
      | None => (Raise (KeyError "password"), db)
      | Some stored =>
        if verify_password (ul_password ul) stored then
          match user !! "_id" with
          | None => (Raise (KeyError "_id"), db)
          | Some id =>
            let access :=
              create_access_token {[ "sub" := sub ]}
                (Minutes ACCESS_TOKEN_EXPIRE_MINUTES) e1 in
            let refresh := create_refresh_token {[ "sub" := sub ]} e2 in
            (Return (login_response access refresh (py_str id)),
             {| users := update_first "_id" id "refresh_token" (VStr refresh)
                           (users db);
                statistics := statistics db;
                next_oid := next_oid db |})
          end
        else (Raise incorrect_credentials, db)
      end
    end
  end.
Proof.
  unfold login_for_access_token.
  destruct (UserLogin_validate body) as [ul|]; [|done].
  unfold bind, users_find_one. cbn [fst snd].
  destruct (find_first _ _ _) as [user|] eqn:Hfind; [|done].
  rewrite (find_first_truthy _ _ _ _ Hfind). cbn [negb].
  apply find_first_matches in Hfind as [_ Hname].
  unfold getitem at 1.
  destruct (user !! "password") as [stored|]; [|done].
  destruct (verify_password _ stored); [|done]. simpl.
  unfold getitem at 1 2. rewrite Hname.
  unfold getitem. destruct (user !! "_id") as [id|]; done.
Qed.

(** C5.  When no user record has the submitted username, and when the first
    such record stores a hash against which the submitted password does not
    verify, the handler raises one and the same [401] "Incorrect username or
    password" and leaves the store untouched. *)
Theorem login_rejects_without_distinction body ul e1 e2 db :
  UserLogin_validate body = Some ul →
  find_first "username" (VStr (ul_username ul)) (users db) = None ∨
  (∃ user stored,
     find_first "username" (VStr (ul_username ul)) (users db) = Some user ∧
     user !! "password" = Some stored ∧
     verify_password (ul_password ul) stored = false) →
  login_for_access_token body e1 e2 db = (Raise incorrect_credentials, db).
Proof.
  intros Hbody Hcase. rewrite login_run, Hbody. simpl.
  destruct Hcase as [->|(user & stored & -> & -> & ->)]; done.
Qed.

(** The accepted path, with the place of the user in the collection. *)
Lemma login_accepted body ul i user stored id e1 e2 db :
  unique_ids (users db) →
  UserLogin_validate body = Some ul →
  list_find (matches "username" (VStr (ul_username ul))) (users db)
    = Some (i, user) →
  user !! "password" = Some stored →
  verify_password (ul_password ul) stored = true →
  user !! "_id" = Some id →
  let sub := VStr (ul_username ul) in
  let access :=
    create_access_token {[ "sub" := sub ]}
      (Minutes ACCESS_TOKEN_EXPIRE_MINUTES) e1 in
  let refresh := create_refresh_token {[ "sub" := sub ]} e2 in
  login_for_access_token body e1 e2 db =
    (Return (login_response access refresh (py_str id)),
     {| users := <[i := <[ "refresh_token" := VStr refresh ]> user]> (users db);
        statistics := statistics db;
        next_oid := next_oid db |}).
Proof.
  intros Hnd Hbody Hfind Hpw Hok Hid sub access refresh.
  rewrite login_run, Hbody. simpl.
  assert (find_first "username" (VStr (ul_username ul)) (users db) = Some user)
    as -> by (apply find_first_Some; eauto).
  rewrite Hpw, Hok, Hid.
  apply list_find_Some in Hfind as (Hl & _ & _).
  by rewrite (update_first_by_id _ _ _ _ _ _ Hnd Hl Hid).
Qed.

(** C4.  When the first record with the submitted username stores a hash
    against which the submitted password verifies, the handler mints the
    access token for subject = username with the configured expiry, mints
    the refresh token for subject = username, sets it as the
    [refresh_token] of that record (over whatever was there, other fields
    and other records as before), and returns the two tokens, the label
    "bearer" and the string of the record's identifier. *)
Theorem login_mints_and_persists body ul user stored id e1 e2 db :
  unique_ids (users db) →
  UserLogin_validate body = Some ul →
  find_first "username" (VStr (ul_username ul)) (users db) = Some user →
  user !! "password" = Some stored →
  verify_password (ul_password ul) stored = true →
  user !! "_id" = Some id →
  let sub := VStr (ul_username ul) in
  let access :=
    create_access_token {[ "sub" := sub ]}
      (Minutes ACCESS_TOKEN_EXPIRE_MINUTES) e1 in
  let refresh := create_refresh_token {[ "sub" := sub ]} e2 in
  ∃ i,
    users db !! i = Some user ∧
    login_for_access_token body e1 e2 db =
      (Return (login_response access refresh (py_str id)),
       {| users := <[i := <[ "refresh_token" := VStr refresh ]> user]> (users db);
          statistics := statistics db;
          next_oid := next_oid db |}) ∧
    find_first "username" sub
      (<[i := <[ "refresh_token" := VStr refresh ]> user]> (users db))
      = Some (<[ "refresh_token" := VStr refresh ]> user).
Proof.
  intros Hnd Hbody [i Hfind]%find_first_Some Hpw Hok Hid sub access refresh.
  exists i. split; [by apply list_find_Some in Hfind as (? & _)|]. split.
  - by eapply login_accepted.
  - apply find_first_Some. exists i. by apply list_find_set_field.
Qed.

End Login.

(** ** Login followed by refresh *)

Section Sessions.
Context `{Utils, Settings, Runtime}.

(** What a successful login leaves behind: identifiers stay unique, and the
    first record with the username stores the token that was returned. *)
Lemma login_post body ul e1 e2 db r db' :
  unique_ids (users db) →
  UserLogin_validate body = Some ul →
  login_for_access_token body e1 e2 db = (Return r, db') →
  let tok := create_refresh_token {[ "sub" := VStr (ul_username ul) ]} e2 in
  unique_ids (users db') ∧
  r !! "refresh_token" = Some (VStr tok) ∧
  ∃ user,
    find_first "username" (VStr (ul_username ul)) (users db') = Some user ∧
    user !! "refresh_token" = Some (VStr tok).
Proof.
  intros Hnd Hbody Hrun tok.
  rewrite login_run, Hbody in Hrun. simpl in Hrun.
  destruct (find_first _ _ _) as [user|] eqn:Hfind; [|done].
  destruct (user !! "password") as [stored|] eqn:Hpw; [|done].
  destruct (verify_password _ stored) eqn:Hok; [|done].
  destruct (user !! "_id") as [id|] eqn:Hid; [|done].
  apply find_first_Some in Hfind as [i Hfind].
  pose proof Hfind as (Hl & _ & _)%list_find_Some.
  rewrite (update_first_by_id _ _ _ _ _ _ Hnd Hl Hid) in Hrun.
  injection Hrun as <- <-. simpl. split; [|split].
  - unfold unique_ids. by rewrite (oids_set_field _ _ _ _ _ Hl).
  - done.
  - eexists. split.
    + apply find_first_Some. exists i. by apply list_find_set_field.
    + by rewrite lookup_insert_eq.
Qed.

(** C3, as the code has it.  After two successive successful logins of one
    username, the stored token is the one returned by the second login:
    presenting it succeeds whenever it decodes, and any token accepted for
    that username is that string; presenting the token returned by the first
    login raises the [401] when it is a different string. *)
Theorem second_login_supersedes_first `{!CodecSound}
    body1 body2 ul1 ul2 e1 e2 e3 e4 db r1 db1 r2 db2 :
  unique_ids (users db) →
  UserLogin_validate body1 = Some ul1 →
  UserLogin_validate body2 = Some ul2 →
  ul_username ul2 = ul_username ul1 →
  login_for_access_token body1 e1 e2 db = (Return r1, db1) →
  login_for_access_token body2 e3 e4 db1 = (Return r2, db2) →
  ∃ tok1 tok2,
    r1 !! "refresh_token" = Some (VStr tok1) ∧
    r2 !! "refresh_token" = Some (VStr tok2) ∧
    (∀ e5 e6, tok1 ≠ tok2 →
       refresh_access_token {| rq_refresh_token := tok1 |} e5 e6 db2
       = (Raise invalid_refresh_token, db2)) ∧
    (∀ e5 e6, is_Some (decode_token tok2 e5) →
       ∃ access,
         refresh_access_token {| rq_refresh_token := tok2 |} e5 e6 db2
         = (Return (refresh_response access tok2), db2)) ∧
    (∀ tok e5 e6 payload,
       decode_token tok e5 = Some payload →
       dict_get payload "sub" = VStr (ul_username ul1) →
       succeeds (refresh_access_token {| rq_refresh_token := tok |} e5 e6 db2) →
       tok = tok2).
Proof.
  intros Hnd Hb1 Hb2 Hname Hrun1 Hrun2.
  destruct (login_post _ _ _ _ _ _ _ Hnd Hb1 Hrun1) as (Hnd1 & Hr1 & _).
  destruct (login_post _ _ _ _ _ _ _ Hnd1 Hb2 Hrun2)
    as (_ & Hr2 & user & Hfind & Hstored).
  rewrite Hname in Hr2, Hfind, Hstored.
  set (sub := VStr (ul_username ul1)) in *.
  exists (create_refresh_token {[ "sub" := sub ]} e2),
         (create_refresh_token {[ "sub" := sub ]} e4).
  split; [done|]. split; [done|].
  assert (∀ e e' claims,
            decode_token (create_refresh_token {[ "sub" := sub ]} e) e'
              = Some claims →
            dict_get claims "sub" = sub) as Hsub.
  { intros e e' claims Hdec%refresh_subject.
    apply dict_get_Some. by rewrite Hdec, lookup_singleton_eq. }
  split; [|split].
  - intros e5 e6 Hne. rewrite refresh_run. simpl.
    destruct (decode_token _ e5) as [claims|] eqn:Hdec; [|done].
    rewrite (Hsub _ _ _ Hdec). rewrite bool_decide_eq_false_2 by done.
    rewrite Hfind, (dict_get_Some _ _ _ Hstored).
    rewrite bool_decide_eq_false_2; [done|]. congruence.
  - intros e5 e6 [claims Hdec]. eexists. rewrite refresh_run. simpl.
    rewrite Hdec, (Hsub _ _ _ Hdec), bool_decide_eq_false_2 by done.
    rewrite Hfind, (dict_get_Some _ _ _ Hstored).
    by rewrite bool_decide_eq_true_2.
  - intros tok e5 e6 claims Hdec Hclaims. rewrite refresh_run.
    unfold succeeds. simpl. rewrite Hdec, Hclaims.
    rewrite bool_decide_eq_false_2 by done.
    rewrite Hfind, (dict_get_Some _ _ _ Hstored).
    case_bool_decide as Heq; [|done]. intros _. congruence.
Qed.

End Sessions.

(** ** The handlers on a concrete store *)

Lemma toy_codec_sound : @CodecSound Toy.utils.
Proof.
  assert (∀ kind e data claims,
            Toy.decode (Toy.token kind e (Toy.sub_of data)) = Some claims →
            claims !! "sub" = data !! "sub") as Hdec.
  { intros kind e data claims. unfold Toy.decode, Toy.token, Toy.sub_of.
    rewrite bool_decide_eq_true_2 by done. simpl.
    case_bool_decide as Hempty; simpl; [done|]. intros [= <-].
    rewrite lookup_singleton_eq.
    destruct (data !! "sub") as [[]|]; simpl in *; congruence. }
  split.
  - intros data exp e e' claims Hc. exact (Hdec "a"%char e data claims Hc).
  - intros data e e' claims Hc. exact (Hdec "r"%char e data claims Hc).
Qed.

Lemma db0_unique_ids : unique_ids (users Toy.db0).
Proof. refine (bool_decide_unpack _ _). vm_compute. exact I. Qed.

(** A token that decodes but is not the stored one is refused. *)
Lemma refresh_requires_stored_token_witness :
  Toy.refresh {| rq_refresh_token := "r0:alice" |}
    (Toy.at_ 5000) (Toy.at_ 5000) Toy.db1
  = (Raise invalid_refresh_token, Toy.db1).
Proof.
  apply (proj2 (@refresh_requires_stored_token Toy.utils Toy.settings
                  {| rq_refresh_token := "r0:alice" |}
                  (Toy.at_ 5000) (Toy.at_ 5000) Toy.db1)
               {[ "sub" := VStr "alice" ]}).
  - reflexivity.
  - discriminate.
  - right. exists (<[ "refresh_token" := VStr "r1:alice" ]> Toy.alice).
    split; [reflexivity|]. vm_compute. discriminate.
Defined.

(** The stored token is exchanged for an access token and comes back as it
    was presented. *)
Lemma refresh_returns_same_refresh_token_witness :
  ∃ username access,
    (<[ "refresh_token" := VStr "r1:alice" ]> Toy.alice) !! "username"
      = Some username ∧
    access = Toy.token "a" (Toy.at_ 5000) "alice" ∧
    Toy.refresh {| rq_refresh_token := "r1:alice" |}
      (Toy.at_ 4000) (Toy.at_ 5000) Toy.db1
    = (Return (refresh_response access "r1:alice"), Toy.db1) ∧
    ∀ e' claims, @decode_token Toy.utils access e' = Some claims →
                 claims !! "sub" = Some username.
Proof.
  destruct (@refresh_returns_same_refresh_token Toy.utils Toy.settings
              toy_codec_sound {| rq_refresh_token := "r1:alice" |}
              (Toy.at_ 4000) (Toy.at_ 5000) Toy.db1
              {[ "sub" := VStr "alice" ]}
              (<[ "refresh_token" := VStr "r1:alice" ]> Toy.alice))
    as (username & access & Hname & Haccess & Hrun & Hsub).
  - reflexivity.
  - discriminate.
  - reflexivity.
  - reflexivity.
  - exists username, access.
    assert (username = VStr "alice") as Heq
      by (vm_compute in Hname; congruence).
    split; [exact Hname|]. split; [by rewrite Haccess, Heq|].
    split; [exact Hrun | exact Hsub].
Defined.

(** [alice] is taken: nothing is stored for a second registration. *)
Lemma register_existing_username_rejected_witness :
  Toy.register {| uc_username := "alice"; uc_password := "other" |}
    (Toy.at_ 1) (Toy.at_ 2) (Toy.at_ 3) Toy.db0
  = (Raise already_registered, Toy.db0).
Proof.
  apply (@register_existing_username_rejected Toy.utils Toy.runtime
           {| uc_username := "alice"; uc_password := "other" |}
           (Toy.at_ 1) (Toy.at_ 2) (Toy.at_ 3) Toy.db0 Toy.alice).
  - apply list_elem_of_here.
  - reflexivity.
Defined.

(** [bob] is new: one user record and one statistics record are appended. *)
Lemma register_creates_user_and_statistics_witness :
  Toy.register {| uc_username := "bob"; uc_password := "pw" |}
    (Toy.at_ 1) (Toy.at_ 2) (Toy.at_ 3) Toy.db0
  = (Return (register_response "2" "bob"),
     {| users := [Toy.alice; user_record (VOid 2) "bob" "h:pw" 2];
        statistics := [(VOid 3, initial_statistics (VOid 2) 3)];
        next_oid := 4 |}).
Proof.
  refine (proj1 (@register_creates_user_and_statistics Toy.utils Toy.runtime
                   {| uc_username := "bob"; uc_password := "pw" |}
                   (Toy.at_ 1) (Toy.at_ 2) (Toy.at_ 3) Toy.db0 _)).
  intros d ->%list_elem_of_singleton. discriminate.
Defined.

(** No token, no profile. *)
Lemma read_users_me_rejects_witness :
  read_users_me (Some {[ "sub" := VStr "carol" ]}) Toy.db1
  = (Raise invalid_token, Toy.db1).
Proof.
  apply (read_users_me_rejects (Some {[ "sub" := VStr "carol" ]}) Toy.db1).
  right. right. exists {[ "sub" := VStr "carol" ]}. split; reflexivity.
Defined.

(** The stored record of [alice] has a hash and a refresh token; her profile
    has neither. *)
Lemma me_profile_has_public_fields_only_witness :
  let stored := <[ "refresh_token" := VStr "r1:alice" ]> Toy.alice in
  let profile := response_model User_fields stored in
  stored !! "password" = Some (VStr "h:p@ss") ∧
  stored !! "refresh_token" = Some (VStr "r1:alice") ∧
  profile !! "password" = None ∧
  profile !! "refresh_token" = None.
Proof.
  intros stored profile.
  split; [reflexivity|]. split; [reflexivity|].
  destruct (me_profile_has_public_fields_only
              (Some {[ "sub" := VStr "alice" ]}) Toy.db1 profile Toy.db1)
    as (_ & Hpassword & Hrefresh & _).
  - reflexivity.
  - exact (conj Hpassword Hrefresh).
Defined.

(** A wrong password and an unknown name get the same answer. *)
Lemma login_rejects_without_distinction_witness :
  Toy.login (Toy.credentials "alice" "wrong") (Toy.at_ 1000) (Toy.at_ 1000)
    Toy.db0
  = (Raise incorrect_credentials, Toy.db0).
Proof.
  apply (@login_rejects_without_distinction Toy.utils Toy.settings Toy.runtime
           (Toy.credentials "alice" "wrong")
           {| ul_username := "alice"; ul_password := "wrong" |}).
  - reflexivity.
  - right. exists Toy.alice, (VStr "h:p@ss"). repeat split; reflexivity.
Defined.

(** [alice] logs in during second 1. *)
Lemma login_mints_and_persists_witness :
  ∃ i,
    users Toy.db0 !! i = Some Toy.alice ∧
    Toy.login (Toy.credentials "alice" "p@ss") (Toy.at_ 1000) (Toy.at_ 1000)
      Toy.db0
    = (Return (login_response "a1:alice" "r1:alice" "0"),
       {| users := <[i := <[ "refresh_token" := VStr "r1:alice" ]> Toy.alice]>
                     (users Toy.db0);
          statistics := [];
          next_oid := 2 |}) ∧
    find_first "username" (VStr "alice")
      (<[i := <[ "refresh_token" := VStr "r1:alice" ]> Toy.alice]>
         (users Toy.db0))
    = Some (<[ "refresh_token" := VStr "r1:alice" ]> Toy.alice).
Proof.
  apply (@login_mints_and_persists Toy.utils Toy.settings Toy.runtime
           (Toy.credentials "alice" "p@ss")
           {| ul_username := "alice"; ul_password := "p@ss" |}
           Toy.alice (VStr "h:p@ss") (VOid 0)
           (Toy.at_ 1000) (Toy.at_ 1000) Toy.db0).
  - exact db0_unique_ids.
  - reflexivity.
  - reflexivity.
  - reflexivity.
  - reflexivity.
  - reflexivity.
Defined.

(** [alice] logs in during second 1 and again during second 2: the first
    token is refused, the second is exchanged. *)
Lemma second_login_supersedes_first_witness :
  Toy.refresh {| rq_refresh_token := "r1:alice" |}
    (Toy.at_ 3000) (Toy.at_ 3000) Toy.db2
  = (Raise invalid_refresh_token, Toy.db2)
  ∧ ∃ access,
      Toy.refresh {| rq_refresh_token := "r2:alice" |}
        (Toy.at_ 3000) (Toy.at_ 3000) Toy.db2
      = (Return (refresh_response access "r2:alice"), Toy.db2).
Proof.
  destruct (@second_login_supersedes_first Toy.utils Toy.settings Toy.runtime
              toy_codec_sound
              (Toy.credentials "alice" "p@ss") (Toy.credentials "alice" "p@ss")
              {| ul_username := "alice"; ul_password := "p@ss" |}
              {| ul_username := "alice"; ul_password := "p@ss" |}
              (Toy.at_ 1000) (Toy.at_ 1000) (Toy.at_ 2000) (Toy.at_ 2000)
              Toy.db0
              (login_response "a1:alice" "r1:alice" "0") Toy.db1
              (login_response "a2:alice" "r2:alice" "0") Toy.db2)
    as (tok1 & tok2 & Hr1 & Hr2 & Hfirst & Hsecond & _).
  - exact db0_unique_ids.
  - reflexivity.
  - reflexivity.
  - reflexivity.
  - vm_compute. reflexivity.
  - vm_compute. reflexivity.
  - assert (tok1 = "r1:alice") as -> by (vm_compute in Hr1; congruence).
    assert (tok2 = "r2:alice") as -> by (vm_compute in Hr2; congruence).
    split.
    + apply Hfirst. discriminate.
    + apply (Hsecond (Toy.at_ 3000)). vm_compute. eauto.
Defined.

(** C3, as the spec states it, fails.  [alice] logs in twice within second 1:
    both logins return the token ["r1:alice"], the second login stores the
    string the first one stored, and a refresh presenting the token of the
    first login is accepted. *)
Lemma first_login_token_still_accepted :
  ¬ (∀ r1 db' r2 db'' tok1,
       Toy.login (Toy.credentials "alice" "p@ss")
         (Toy.at_ 1000) (Toy.at_ 1000) Toy.db0 = (Return r1, db') →
       Toy.login (Toy.credentials "alice" "p@ss")
         (Toy.at_ 1400) (Toy.at_ 1400) db' = (Return r2, db'') →
       r1 !! "refresh_token" = Some (VStr tok1) →
       Toy.refresh {| rq_refresh_token := tok1 |}
         (Toy.at_ 1800) (Toy.at_ 1800) db''
       = (Raise invalid_refresh_token, db'')).
Proof.
  intros Hclaim.
  specialize (Hclaim (login_response "a1:alice" "r1:alice" "0") Toy.db1
                     (login_response "a1:alice" "r1:alice" "0") Toy.db1
                     "r1:alice").
  assert (Toy.refresh {| rq_refresh_token := "r1:alice" |}
            (Toy.at_ 1800) (Toy.at_ 1800) Toy.db1
          = (Raise invalid_refresh_token, Toy.db1)) as Hrejected.
  { apply Hclaim; vm_compute; reflexivity. }
  vm_compute in Hrejected. discriminate.
Qed.

(** * Further properties of the handlers *)

(** ** Fields of a collection under an in-place update *)

Lemma omap_field_set_field (f : string) (l : list doc) (i : nat) (d : doc) k x :
  l !! i = Some d → k ≠ f →
  omap (λ d : doc, d !! f) (<[i := <[k := x]> d]> l)
  = omap (λ d : doc, d !! f) l.
Proof.
  revert i. induction l as [|d0 l IH]; intros i Hl Hk; [done|].
  destruct i as [|i]; simpl in Hl.
  - injection Hl as ->. cbn. by rewrite lookup_insert_ne.
  - specialize (IH i Hl Hk). cbn in *.
    destruct (d0 !! f); [f_equal|]; exact IH.
Qed.

Lemma omap_field_update_first (f : string) k v k' x l :
  k' ≠ f →
  omap (λ d : doc, d !! f) (update_first k v k' x l)
  = omap (λ d : doc, d !! f) l.
Proof.
  intros Hk. unfold update_first.
  destruct (list_find _ l) as [[i d]|] eqn:Hfind; [|done].
  apply list_find_Some in Hfind as (Hl & _).
  by apply omap_field_set_field.
Qed.

Lemma update_first_length k v k' x l :
  length (update_first k v k' x l) = length l.
Proof.
  unfold update_first. destruct (list_find _ l) as [[i d]|]; [|done].
  apply length_insert.
Qed.

Lemma update_first_lookup k v k' x (l : list doc) (j : nat) (d : doc) :
  l !! j = Some d →
  ∃ d', update_first k v k' x l !! j = Some d' ∧
        ∀ f, f ≠ k' → d' !! f = d !! f.
Proof.
  intros Hj. unfold update_first.
  destruct (list_find _ l) as [[i d0]|] eqn:Hfind; [|eauto].
  apply list_find_Some in Hfind as (Hl & _).
  destruct (decide (i = j)) as [->|Hne].
  - assert (d0 = d) as -> by congruence.
    exists (<[k' := x]> d). split.
    + apply list_lookup_insert_eq. by eapply lookup_lt_Some.
    + intros f Hf. by rewrite lookup_insert_ne.
  - exists d. by rewrite list_lookup_insert_ne.
Qed.

(** A filter that selects neither the old nor the new document at a
    position finds the same documents before and after the replacement. *)
Lemma list_find_insert_unmatched k v (l : list doc) (i : nat) (d d' : doc) :
  l !! i = Some d → ¬ matches k v d → ¬ matches k v d' →
  list_find (matches k v) (<[i := d']> l) = list_find (matches k v) l.
Proof.
  revert i. induction l as [|d0 l IH]; intros i Hl Hd Hd'; [done|].
  destruct i as [|i]; simpl in Hl.
  - injection Hl as ->. cbn. by rewrite !decide_False.
  - specialize (IH i Hl Hd Hd'). cbn in *.
    destruct (decide (matches k v d0)); [done|]. f_equal. exact IH.
Qed.

Lemma find_first_app k v l l' :
  find_first k v (l ++ l') =
  match find_first k v l with
  | Some d => Some d
  | None => find_first k v l'
  end.
Proof.
  unfold find_first.
  destruct (list_find (matches k v) l) as [[i d]|] eqn:Hfind; simpl.
  - by rewrite (list_find_app_l _ _ _ _ _ Hfind).
  - rewrite (list_find_app_r _ _ _ Hfind).
    by destruct (list_find (matches k v) l') as [[j d]|].
Qed.

Lemma find_first_singleton k v (d : doc) :
  find_first k v [d] = if decide (d !! k = Some v) then Some d else None.
Proof.
  unfold find_first. cbn. unfold matches.
  by destruct (decide (d !! k = Some v)).
Qed.


(** ** Login: failures, acceptance and what is left alone *)

Section LoginMore.
Context `{Utils, Settings, Runtime}.

(** X1.  Whenever [login_for_access_token] raises (the [401], a
    [KeyError], a validation error) the store is the one it was called on:
    the only write of the handler happens after every check has passed. *)
Theorem login_raise_leaves_store_unchanged body e1 e2 db e db' :
  login_for_access_token body e1 e2 db = (Raise e, db') → db' = db.
Proof.
  rewrite login_run.
  destruct (UserLogin_validate body) as [ul|]; [|congruence]. simpl.
  destruct (find_first _ _ _) as [user|]; [|congruence].
  destruct (user !! "password") as [stored|]; [|congruence].
  destruct (verify_password _ stored); [|congruence].
  destruct (user !! "_id") as [id|]; congruence.
Qed.

(** X2.  A login that returns has verified the submitted password against
    the [password] field of the first stored record with the submitted
    username: no response is produced without a record and a successful
    [verify_password] on its stored hash. *)
Theorem login_success_requires_verified_password body e1 e2 db r db' :
  login_for_access_token body e1 e2 db = (Return r, db') →
  ∃ ul user stored,
    UserLogin_validate body = Some ul ∧
    find_first "username" (VStr (ul_username ul)) (users db) = Some user ∧
    user !! "password" = Some stored ∧
    verify_password (ul_password ul) stored = true.
Proof.
  rewrite login_run.
  destruct (UserLogin_validate body) as [ul|]; [|done]. simpl.
  destruct (find_first _ _ _) as [user|] eqn:Hfind; [|done].
  destruct (user !! "password") as [stored|] eqn:Hpw; [|done].
  destruct (verify_password _ stored) eqn:Hok; [|done].
  intros _. by exists ul, user, stored.
Qed.

(** X3.  When the first record with the submitted username has no
    [password] field, [user["password"]] raises [KeyError] instead of the
    [401], whatever the submitted password; the store is unchanged. *)
Theorem login_record_without_password_raises_KeyError body ul user e1 e2 db :
  UserLogin_validate body = Some ul →
  find_first "username" (VStr (ul_username ul)) (users db) = Some user →
  user !! "password" = None →
  login_for_access_token body e1 e2 db = (Raise (KeyError "password"), db).
Proof.
  intros Hbody Hfind Hpw. rewrite login_run, Hbody. simpl.
  by rewrite Hfind, Hpw.
Qed.

(** X4.  On every outcome, login leaves the statistics collection and the
    identifier source as they were, keeps the number of user records, and
    keeps every field of every user record except [refresh_token]: no
    identifier, username, password hash or creation time is changed. *)
Theorem login_touches_only_refresh_token body e1 e2 db :
  let db' := (login_for_access_token body e1 e2 db).2 in
  statistics db' = statistics db ∧
  next_oid db' = next_oid db ∧
  length (users db') = length (users db) ∧
  ∀ j d, users db !! j = Some d →
    ∃ d', users db' !! j = Some d' ∧
          ∀ f, f ≠ "refresh_token" → d' !! f = d !! f.
Proof.
  assert (∀ l' : list doc,
            l' = users db ∨
            (∃ id x, l' = update_first "_id" id "refresh_token" x (users db)) →
            length l' = length (users db) ∧
            ∀ j d, users db !! j = Some d →
              ∃ d', l' !! j = Some d' ∧
                    ∀ f, f ≠ "refresh_token" → d' !! f = d !! f) as Hframe.
  { intros l' [->|(id & x & ->)]; [by eauto|].
    split; [apply update_first_length|].
    intros j d Hj. by apply update_first_lookup. }
  assert (∀ o : outcome doc,
            statistics (o, db).2 = statistics db ∧
            next_oid (o, db).2 = next_oid db ∧
            length (users (o, db).2) = length (users db) ∧
            ∀ j d, users db !! j = Some d →
              ∃ d', users (o, db).2 !! j = Some d' ∧
                    ∀ f, f ≠ "refresh_token" → d' !! f = d !! f) as Hsame.
  { intros o. simpl. split; [done|]. split; [done|]. apply Hframe. by left. }
  rewrite login_run.
  destruct (UserLogin_validate body) as [ul|]; [|apply Hsame]. simpl.
  destruct (find_first _ _ _) as [user|]; [|apply Hsame].
  destruct (user !! "password") as [stored|]; [|apply Hsame].
  destruct (verify_password _ stored); [|apply Hsame].
  destruct (user !! "_id") as [id|]; [|apply Hsame].
  simpl. split; [done|]. split; [done|]. apply Hframe. right. eauto.
Qed.

(** On every outcome the identifiers, the usernames, the statistics and
    the identifier source are those login was called on. *)
Lemma login_keeps_collections body e1 e2 db :
  let db' := (login_for_access_token body e1 e2 db).2 in
  oids (users db') = oids (users db) ∧
  usernames (users db') = usernames (users db) ∧
  statistics db' = statistics db ∧
  next_oid db' = next_oid db.
Proof.
  rewrite login_run.
  destruct (UserLogin_validate body) as [ul|]; [|done]. simpl.
  destruct (find_first _ _ _) as [user|]; [|done].
  destruct (user !! "password") as [stored|]; [|done].
  destruct (verify_password _ stored); [|done].
  destruct (user !! "_id") as [id|]; [|done].
  simpl. unfold oids, usernames.
  by rewrite !omap_field_update_first.
Qed.

(** X5.  Login keeps the store's invariants on every outcome: identifiers
    stay unique and issued, usernames stay unique, and the statistics stay
    linked one to one to the users. *)
Theorem login_preserves_store_invariants body e1 e2 db :
  unique_ids (users db) ∧ ids_issued db ∧
  unique_usernames (users db) ∧ statistics_linked db →
  let db' := (login_for_access_token body e1 e2 db).2 in
  unique_ids (users db') ∧ ids_issued db' ∧
  unique_usernames (users db') ∧ statistics_linked db'.
Proof.
  intros Hinv db'.
  destruct (login_keeps_collections body e1 e2 db)
    as (Hoids & Hnames & Hstats & Hnext).
  fold db' in Hoids, Hnames, Hstats, Hnext.
  unfold unique_ids, ids_issued, unique_usernames, statistics_linked in *.
  by rewrite Hoids, Hnames, Hstats, Hnext.
Qed.

End LoginMore.

(** ** Refresh: the guards before the lookup, and other users' sessions *)

Section RefreshMore.
Context `{Utils, Settings}.

(** X6.  A token that does not decode, and a token whose claim set has no
    subject (the key is missing or holds [None]), are refused with the
    [401] "Invalid refresh token" before any lookup; the store is
    unchanged. *)
Theorem refresh_rejects_undecodable_or_subjectless request e1 e2 db :
  decode_token (rq_refresh_token request) e1 = None ∨
  (∃ payload,
     decode_token (rq_refresh_token request) e1 = Some payload ∧
     dict_get payload "sub" = VNull) →
  refresh_access_token request e1 e2 db = (Raise invalid_refresh_token, db).
Proof.
  rewrite refresh_run. intros [->|(payload & -> & Hsub)]; [done|].
  by rewrite bool_decide_eq_true_2.
Qed.

(** X7.  Whatever makes a refresh fail, the exception is the same [401]
    "Invalid refresh token" with the same header: the handler raises nothing
    else, so a caller cannot tell which check refused the token. *)
Theorem refresh_raises_only_invalid_refresh_token request e1 e2 db e db' :
  refresh_access_token request e1 e2 db = (Raise e, db') →
  e = invalid_refresh_token.
Proof.
  rewrite refresh_run.
  destruct (decode_token _ e1) as [payload|]; [|congruence].
  case_bool_decide; [congruence|].
  destruct (find_first _ _ _) as [user|]; [|congruence].
  case_bool_decide; congruence.
Qed.

End RefreshMore.

Section OtherSessions.
Context `{Utils, Settings, Runtime}.

(** With unique identifiers, a login changes no record found under another
    username. *)
Lemma login_keeps_other_usernames body ul e1 e2 db sub :
  unique_ids (users db) →
  UserLogin_validate body = Some ul →
  sub ≠ VStr (ul_username ul) →
  find_first "username" sub (users (login_for_access_token body e1 e2 db).2)
  = find_first "username" sub (users db).
Proof.
  intros Hnd Hbody Hsub. rewrite login_run, Hbody. simpl.
  destruct (find_first _ _ (users db)) as [user|] eqn:Hfind; [|done].
  destruct (user !! "password") as [stored|]; [|done].
  destruct (verify_password _ stored); [|done].
  destruct (user !! "_id") as [id|] eqn:Hid; [|done]. simpl.
  apply find_first_Some in Hfind as [i Hfind].
  apply list_find_Some in Hfind as (Hl & Hname & _).
  rewrite (update_first_by_id _ _ _ _ _ _ Hnd Hl Hid).
  unfold find_first. f_equal.
  apply (list_find_insert_unmatched _ _ _ _ user); [done|..];
    unfold matches in *.
  - congruence.
  - rewrite lookup_insert_ne by done. congruence.
Qed.

(** X8.  In a store with unique identifiers, a login under one username
    does not change the outcome of a refresh whose token does not decode to
    that username: other users' stored refresh tokens stay valid, and
    invalid tokens stay invalid. *)
Theorem login_leaves_other_users_refresh_outcome body ul e1 e2 db
    request e3 e4 :
  unique_ids (users db) →
  UserLogin_validate body = Some ul →
  (∀ payload,
     decode_token (rq_refresh_token request) e3 = Some payload →
     dict_get payload "sub" ≠ VStr (ul_username ul)) →
  (refresh_access_token request e3 e4
     (login_for_access_token body e1 e2 db).2).1
  = (refresh_access_token request e3 e4 db).1.
Proof.
  intros Hnd Hbody Hother. rewrite !refresh_run. simpl.
  destruct (decode_token _ e3) as [payload|]; [|done].
  case_bool_decide; [done|].
  by rewrite (login_keeps_other_usernames _ _ _ _ _ _ Hnd Hbody (Hother _ eq_refl)).
Qed.

End OtherSessions.

(** ** Who am I: acceptance and frame *)

(** X9.  [read_users_me] returns exactly when the decoded token carries a
    subject and a user record has it as username; what it returns is that
    stored record itself, with every field it has, and the store is
    unchanged. *)
Theorem read_users_me_returns_iff token db user db' :
  read_users_me token db = (Return user, db') ↔
  db' = db ∧
  ∃ claims,
    token = Some claims ∧
    dict_get claims "sub" ≠ VNull ∧
    find_first "username" (dict_get claims "sub") (users db) = Some user.
Proof.
  rewrite read_users_me_run. split.
  - destruct token as [claims|]; [|done].
    case_bool_decide as Hsub; [done|].
    destruct (find_first _ _ _) as [u|] eqn:Hfind; [|done].
    intros [= -> ->]. eauto.
  - intros (-> & claims & -> & Hsub & Hfind).
    by rewrite bool_decide_eq_false_2, Hfind.
Qed.

(** X10.  Neither the handler nor the endpoint around it writes to the
    store, whether the request is served or refused. *)
Theorem me_leaves_store_unchanged token db :
  (read_users_me token db).2 = db ∧ (me_endpoint token db).2 = db.
Proof.
  assert ((read_users_me token db).2 = db) as Hframe
    by (by rewrite read_users_me_run).
  split; [done|]. unfold me_endpoint, bind, ret.
  destruct (read_users_me token db) as [[user|e] db']; simpl in *; done.
Qed.

(** ** Register: invariants of the store *)

Lemma omap_field_snoc (f : string) (l : list doc) (d : doc) v :
  d !! f = Some v →
  omap (λ d : doc, d !! f) (l ++ [d])%list
  = (omap (λ d : doc, d !! f) l ++ [v])%list.
Proof. intros Hf. rewrite omap_app. cbn. by rewrite Hf. Qed.

Lemma issued_mono next next' v :
  (next ≤ next')%N → issued next v → issued next' v.
Proof. destruct v; simpl; try done. lia. Qed.

(** A record carrying the next identifier of the source joins a collection
    of issued identifiers without a clash. *)
Lemma unique_ids_snoc next (l : list doc) (d : doc) :
  unique_ids l → Forall (issued next) (oids l) →
  d !! "_id" = Some (VOid next) →
  unique_ids (l ++ [d]).
Proof.
  intros Hnd Hissued Hid. unfold unique_ids, oids in *.
  rewrite (omap_field_snoc "_id" _ _ _ Hid).
  apply NoDup_app. split; [done|]. split; [|apply NoDup_singleton].
  intros v Hv ->%list_elem_of_singleton.
  rewrite Forall_forall in Hissued. specialize (Hissued _ Hv).
  simpl in Hissued. lia.
Qed.

Lemma ids_issued_snoc next next' (l : list doc) (d : doc) :
  Forall (issued next) (oids l) →
  d !! "_id" = Some (VOid next) → (next < next')%N →
  Forall (issued next') (oids (l ++ [d])).
Proof.
  intros Hissued Hid Hlt. unfold oids in *.
  rewrite (omap_field_snoc "_id" _ _ _ Hid).
  apply Forall_app. split.
  - eapply Forall_impl; [done|]. intros v. apply issued_mono. lia.
  - by apply Forall_singleton.
Qed.


Section RegisterMore.
Context `{Utils, Runtime}.

(** The store after a registration that went through. *)
Lemma register_fresh_run user e1 e2 e3 db :
  (∀ d, d ∈ users db → d !! "username" ≠ Some (VStr (uc_username user))) →
  register_user user e1 e2 e3 db =
    (Return (register_response (py_str (VOid (next_oid db))) (uc_username user)),
     {| users := users db ++
                 [user_record (VOid (next_oid db)) (uc_username user)
                    (get_password_hash (uc_password user) e1) (clock e2)];
        statistics := statistics db ++
                      [(VOid (N.succ (next_oid db)),
                        initial_statistics (VOid (next_oid db)) (clock e3))];
        next_oid := N.succ (N.succ (next_oid db)) |}).
Proof.
  intros Hfresh. rewrite register_run.
  apply find_first_None in Hfresh. by rewrite Hfresh.
Qed.

(** X11.  Registration keeps identifiers unique and issued, whether it
    goes through or is refused: the new record takes the next identifier of
    the source, which no stored record carries. *)
Theorem register_keeps_identifiers_unique user e1 e2 e3 db :
  unique_ids (users db) → ids_issued db →
  let db' := (register_user user e1 e2 e3 db).2 in
  unique_ids (users db') ∧ ids_issued db'.
Proof.
  intros Hnd Hissued db'. subst db'. rewrite register_run.
  destruct (truthy _); [done|]. simpl. split.
  - by eapply unique_ids_snoc.
  - unfold ids_issued. simpl. eapply ids_issued_snoc; [done..|lia].
Qed.



(** X14.  After a registration that went through, registering the same
    username again, with any password and at any time, is refused with the
    [400] and changes nothing. *)
Theorem register_twice_rejected user user' e1 e2 e3 e1' e2' e3' db :
  (∀ d, d ∈ users db → d !! "username" ≠ Some (VStr (uc_username user))) →
  uc_username user' = uc_username user →
  let db' := (register_user user e1 e2 e3 db).2 in
  register_user user' e1' e2' e3' db' = (Raise already_registered, db').
Proof.
  intros Hfresh Hname db'. subst db'.
  rewrite (register_fresh_run _ _ _ _ _ Hfresh). simpl.
  rewrite register_run. simpl. rewrite Hname, find_first_app.
  rewrite (proj2 (find_first_None _ _ _) Hfresh).
  rewrite find_first_singleton, decide_True by done. done.
Qed.

End RegisterMore.

(** ** Register followed by the other handlers *)

Lemma user_record_refresh_token id username hash t :
  dict_get (user_record id username hash t) "refresh_token" = VNull.
Proof. done. Qed.

Lemma user_record_profile id username hash t :
  response_model User_fields (user_record id username hash t)
  = <[ "_id" := id ]>
    (<[ "username" := VStr username ]> {[ "created_at" := VDate t ]}).
Proof.
  apply map_eq. intros k. rewrite response_model_lookup. unfold user_record.
  destruct (decide (k = "_id")) as [->|]; [by simplify_map_eq|].
  destruct (decide (k = "username")) as [->|]; [by simplify_map_eq|].
  destruct (decide (k = "created_at")) as [->|]; [by simplify_map_eq|].
  rewrite decide_False.
  - by simplify_map_eq.
  - unfold User_fields. rewrite !elem_of_cons, elem_of_nil. tauto.
Qed.

Section AfterRegister.
Context `{Utils, Settings, Runtime}.

(** X15.  A registration, accepted or refused, changes the outcome of no
    refresh request: the records it finds are as they were, and the record
    it may have added has no [refresh_token], so that a token naming the new
    user is refused as it was before. *)
Theorem register_leaves_refresh_outcomes user e1 e2 e3 db request e4 e5 :
  (refresh_access_token request e4 e5 (register_user user e1 e2 e3 db).2).1
  = (refresh_access_token request e4 e5 db).1.
Proof.
  rewrite register_run. destruct (truthy _); [done|]. simpl.
  rewrite !refresh_run. simpl.
  destruct (decode_token _ e4) as [payload|]; [|done].
  case_bool_decide; [done|].
  rewrite find_first_app.
  destruct (find_first _ _ (users db)) as [found|]; [done|].
  rewrite find_first_singleton. case_decide; [|done].
  by rewrite user_record_refresh_token.
Qed.

(** X16.  After a registration that went through, a login under the new
    username is decided by [verify_password] on the hash stored at
    registration: when it verifies, the login returns tokens for that
    username and the identifier that registration returned; when it does
    not, the login raises the [401] and the store stays as registration
    left it. *)
Theorem register_then_login user e1 e2 e3 db body ul e4 e5 :
  (∀ d, d ∈ users db → d !! "username" ≠ Some (VStr (uc_username user))) →
  UserLogin_validate body = Some ul →
  ul_username ul = uc_username user →
  let db' := (register_user user e1 e2 e3 db).2 in
  let hash := VStr (get_password_hash (uc_password user) e1) in
  let sub := VStr (uc_username user) in
  (verify_password (ul_password ul) hash = true →
   ∃ db'',
     login_for_access_token body e4 e5 db' =
       (Return (login_response
                  (create_access_token {[ "sub" := sub ]}
                     (Minutes ACCESS_TOKEN_EXPIRE_MINUTES) e4)
                  (create_refresh_token {[ "sub" := sub ]} e5)
                  (py_str (VOid (next_oid db)))),
        db''))
  ∧
  (verify_password (ul_password ul) hash = false →
   login_for_access_token body e4 e5 db' = (Raise incorrect_credentials, db')).
Proof.
  intros Hfresh Hbody Hname db' hash sub. subst db'.
  rewrite (register_fresh_run _ _ _ _ _ Hfresh). simpl.
  rewrite login_run, Hbody. simpl. rewrite Hname, find_first_app.
  rewrite (proj2 (find_first_None _ _ _) Hfresh).
  rewrite find_first_singleton, decide_True by done.
  change (user_record _ _ _ _ !! "password") with (Some hash).
  split; intros ->; [|done].
  change (user_record _ _ _ _ !! "_id") with (Some (VOid (next_oid db))).
  eauto.
Qed.

(** X17.  After a registration that went through, [GET /me] with a token
    whose subject is the new username sends the profile made of the new
    identifier, the username and the creation time taken at registration,
    and nothing else. *)
Theorem register_then_me user e1 e2 e3 db claims :
  (∀ d, d ∈ users db → d !! "username" ≠ Some (VStr (uc_username user))) →
  dict_get claims "sub" = VStr (uc_username user) →
  let db' := (register_user user e1 e2 e3 db).2 in
  me_endpoint (Some claims) db' =
    (Return (<[ "_id" := VOid (next_oid db) ]>
             (<[ "username" := VStr (uc_username user) ]>
              {[ "created_at" := VDate (clock e2) ]})),
     db').
Proof.
  intros Hfresh Hsub db'. subst db'.
  rewrite (register_fresh_run _ _ _ _ _ Hfresh). simpl.
  unfold me_endpoint, bind. rewrite read_users_me_run, Hsub. simpl.
  rewrite find_first_app, (proj2 (find_first_None _ _ _) Hfresh).
  rewrite find_first_singleton, decide_True by done.
  unfold ret. by rewrite user_record_profile.
Qed.

End AfterRegister.

(** ** Every store the routes can produce *)

Section ServerInvariant.
Context `{Utils, Settings, Runtime}.




End ServerInvariant.

(** ** The further properties on concrete stores *)

Lemma toy_store_invariant : store_invariant Toy.db_alice.
Proof. refine (bool_decide_unpack _ _). vm_compute. exact I. Qed.

Lemma db_two_unique_ids : unique_ids (users Toy.db_two).
Proof. refine (bool_decide_unpack _ _). vm_compute. exact I. Qed.

(** A wrong password raises and the store is the one before. *)
Lemma login_raise_leaves_store_unchanged_witness :
  (Toy.login (Toy.credentials "alice" "wrong") (Toy.at_ 1000) (Toy.at_ 1000)
     Toy.db0).2 = Toy.db0.
Proof.
  apply (@login_raise_leaves_store_unchanged Toy.utils Toy.settings Toy.runtime
           (Toy.credentials "alice" "wrong") (Toy.at_ 1000) (Toy.at_ 1000)
           Toy.db0 incorrect_credentials).
  vm_compute. reflexivity.
Defined.

(** The login of [alice] went through the check of her stored hash. *)
Lemma login_success_requires_verified_password_witness :
  ∃ ul user stored,
    Toy.validate (Toy.credentials "alice" "p@ss") = Some ul ∧
    find_first "username" (VStr (ul_username ul)) (users Toy.db0) = Some user ∧
    user !! "password" = Some stored ∧
    @verify_password Toy.utils (ul_password ul) stored = true.
Proof.
  apply (@login_success_requires_verified_password
           Toy.utils Toy.settings Toy.runtime
           (Toy.credentials "alice" "p@ss") (Toy.at_ 1000) (Toy.at_ 1000)
           Toy.db0 (login_response "a1:alice" "r1:alice" "0") Toy.db1).
  vm_compute. reflexivity.
Defined.

(** [guest] has no password field: the login ends in a [KeyError]. *)
Lemma login_record_without_password_raises_KeyError_witness :
  Toy.login (Toy.credentials "guest" "anything") (Toy.at_ 1000) (Toy.at_ 1000)
    Toy.db_guest
  = (Raise (KeyError "password"), Toy.db_guest).
Proof.
  apply (@login_record_without_password_raises_KeyError
           Toy.utils Toy.settings Toy.runtime
           (Toy.credentials "guest" "anything")
           {| ul_username := "guest"; ul_password := "anything" |} Toy.guest).
  - reflexivity.
  - reflexivity.
  - reflexivity.
Defined.

(** The invariants hold after [alice] logs in. *)
Lemma login_preserves_store_invariants_witness :
  let db' := (Toy.login (Toy.credentials "alice" "p@ss")
                (Toy.at_ 1000) (Toy.at_ 1000) Toy.db_alice).2 in
  unique_ids (users db') ∧ ids_issued db' ∧
  unique_usernames (users db') ∧ statistics_linked db'.
Proof.
  apply (@login_preserves_store_invariants Toy.utils Toy.settings Toy.runtime
           (Toy.credentials "alice" "p@ss") (Toy.at_ 1000) (Toy.at_ 1000)
           Toy.db_alice).
  exact toy_store_invariant.
Defined.

(** A string that is no token of the codec is refused. *)
Lemma refresh_rejects_undecodable_or_subjectless_witness :
  Toy.refresh {| rq_refresh_token := "garbage" |}
    (Toy.at_ 1000) (Toy.at_ 1000) Toy.db1
  = (Raise invalid_refresh_token, Toy.db1).
Proof.
  apply (@refresh_rejects_undecodable_or_subjectless Toy.utils Toy.settings
           {| rq_refresh_token := "garbage" |}).
  left. reflexivity.
Defined.

(** A token for an unknown user raises the same exception. *)
Lemma refresh_raises_only_invalid_refresh_token_witness :
  HTTPException 401 "Invalid refresh token" bearer_header
  = invalid_refresh_token.
Proof.
  apply (@refresh_raises_only_invalid_refresh_token Toy.utils Toy.settings
           {| rq_refresh_token := "r1:carol" |} (Toy.at_ 1000) (Toy.at_ 1000)
           Toy.db1 (HTTPException 401 "Invalid refresh token" bearer_header)
           Toy.db1).
  vm_compute. reflexivity.
Defined.

(** [alice] logs in; the stored token of [bob] is exchanged as before. *)
Lemma login_leaves_other_users_refresh_outcome_witness :
  (Toy.refresh {| rq_refresh_token := "r7:bob" |} (Toy.at_ 9000) (Toy.at_ 9000)
     (Toy.login (Toy.credentials "alice" "p@ss")
        (Toy.at_ 8000) (Toy.at_ 8000) Toy.db_two).2).1
  = Return (refresh_response "a9:bob" "r7:bob").
Proof.
  unfold Toy.refresh, Toy.login.
  rewrite (@login_leaves_other_users_refresh_outcome
             Toy.utils Toy.settings Toy.runtime
             (Toy.credentials "alice" "p@ss")
             {| ul_username := "alice"; ul_password := "p@ss" |}
             (Toy.at_ 8000) (Toy.at_ 8000) Toy.db_two
             {| rq_refresh_token := "r7:bob" |} (Toy.at_ 9000) (Toy.at_ 9000)).
  - vm_compute. reflexivity.
  - exact db_two_unique_ids.
  - reflexivity.
  - intros payload [= <-]. discriminate.
Defined.

(** Registering [bob] beside [alice] keeps identifiers unique and issued. *)
Lemma register_keeps_identifiers_unique_witness :
  let db' := (Toy.register {| uc_username := "bob"; uc_password := "pw" |}
                (Toy.at_ 1) (Toy.at_ 2) (Toy.at_ 3) Toy.db_alice).2 in
  unique_ids (users db') ∧ ids_issued db'.
Proof.
  apply (@register_keeps_identifiers_unique Toy.utils Toy.runtime
           {| uc_username := "bob"; uc_password := "pw" |}
           (Toy.at_ 1) (Toy.at_ 2) (Toy.at_ 3) Toy.db_alice).
  - exact (proj1 toy_store_invariant).
  - exact (proj1 (proj2 toy_store_invariant)).
Defined.



Lemma alice_only : ∀ d, d ∈ users Toy.db_alice → d !! "username" ≠ Some (VStr "bob").
Proof. intros d ->%list_elem_of_singleton. discriminate. Qed.

(** [bob] registers; a second [bob] is refused, whatever the password. *)
Lemma register_twice_rejected_witness :
  let db' := (Toy.register {| uc_username := "bob"; uc_password := "pw" |}
                (Toy.at_ 1) (Toy.at_ 2) (Toy.at_ 3) Toy.db_alice).2 in
  Toy.register {| uc_username := "bob"; uc_password := "other" |}
    (Toy.at_ 4) (Toy.at_ 5) (Toy.at_ 6) db'
  = (Raise already_registered, db').
Proof.
  apply (@register_twice_rejected Toy.utils Toy.runtime
           {| uc_username := "bob"; uc_password := "pw" |}
           {| uc_username := "bob"; uc_password := "other" |}).
  - exact alice_only.
  - reflexivity.
Defined.

(** [bob] registers, then logs in with his password and with another. *)
Lemma register_then_login_witness :
  let db' := (Toy.register {| uc_username := "bob"; uc_password := "pw" |}
                (Toy.at_ 1) (Toy.at_ 2) (Toy.at_ 3) Toy.db_alice).2 in
  (∃ db'',
     Toy.login (Toy.credentials "bob" "pw") (Toy.at_ 4000) (Toy.at_ 4000) db'
     = (Return (login_response "a4:bob" "r4:bob" "2"), db''))
  ∧ Toy.login (Toy.credentials "bob" "pw2") (Toy.at_ 4000) (Toy.at_ 4000) db'
    = (Raise incorrect_credentials, db').
Proof.
  intros db'. split.
  - apply (proj1 (@register_then_login Toy.utils Toy.settings Toy.runtime
                    {| uc_username := "bob"; uc_password := "pw" |}
                    (Toy.at_ 1) (Toy.at_ 2) (Toy.at_ 3) Toy.db_alice
                    (Toy.credentials "bob" "pw")
                    {| ul_username := "bob"; ul_password := "pw" |}
                    (Toy.at_ 4000) (Toy.at_ 4000)
                    alice_only eq_refl eq_refl)).
    reflexivity.
  - apply (proj2 (@register_then_login Toy.utils Toy.settings Toy.runtime
                    {| uc_username := "bob"; uc_password := "pw" |}
                    (Toy.at_ 1) (Toy.at_ 2) (Toy.at_ 3) Toy.db_alice
                    (Toy.credentials "bob" "pw2")
                    {| ul_username := "bob"; ul_password := "pw2" |}
                    (Toy.at_ 4000) (Toy.at_ 4000)
                    alice_only eq_refl eq_refl)).
    reflexivity.
Defined.

(** [bob] registers and asks who he is. *)
Lemma register_then_me_witness :
  let db' := (Toy.register {| uc_username := "bob"; uc_password := "pw" |}
                (Toy.at_ 1) (Toy.at_ 2) (Toy.at_ 3) Toy.db_alice).2 in
  me_endpoint (Some {[ "sub" := VStr "bob" ]}) db'
  = (Return (<[ "_id" := VOid 2 ]>
             (<[ "username" := VStr "bob" ]> {[ "created_at" := VDate 2 ]})),
     db').
Proof.
  apply (@register_then_me Toy.utils Toy.runtime
           {| uc_username := "bob"; uc_password := "pw" |}
           (Toy.at_ 1) (Toy.at_ 2) (Toy.at_ 3) Toy.db_alice
           {[ "sub" := VStr "bob" ]}).
  - exact alice_only.
  - reflexivity.
Defined.

(** ** Login followed by refresh *)

Section LoginThenRefresh.
Context `{Utils, Settings, Runtime}.

(** X19.  In a store with unique identifiers, the refresh token a login
    returns is accepted right away, as long as the codec decodes it: the
    refresh returns an access token minted for the login's username, hands
    the same refresh token back and leaves the store as the login left it,
    so that the token can be presented again. *)
Theorem login_then_refresh `{!CodecSound} body ul e1 e2 db r db' tok e3 e4 :
  unique_ids (users db) →
  UserLogin_validate body = Some ul →
  login_for_access_token body e1 e2 db = (Return r, db') →
  r !! "refresh_token" = Some (VStr tok) →
  is_Some (decode_token tok e3) →
  refresh_access_token {| rq_refresh_token := tok |} e3 e4 db' =
    (Return (refresh_response
               (create_access_token {[ "sub" := VStr (ul_username ul) ]}
                  (Minutes ACCESS_TOKEN_EXPIRE_MINUTES) e4)
               tok),
     db').
Proof.
  intros Hnd Hbody Hrun Hr [claims Hdec].
  destruct (login_post _ _ _ _ _ _ _ Hnd Hbody Hrun)
    as (_ & Hr' & user & Hfind & Hstored).
  rewrite Hr in Hr'. injection Hr' as ->.
  pose proof (refresh_subject _ _ _ _ Hdec) as Hsub.
  rewrite lookup_singleton_eq in Hsub. apply dict_get_Some in Hsub.
  rewrite refresh_run. simpl.
  rewrite Hdec, Hsub, bool_decide_eq_false_2 by done.
  rewrite Hfind, (dict_get_Some _ _ _ Hstored).
  by rewrite bool_decide_eq_true_2.
Qed.

End LoginThenRefresh.

(** [alice] logs in during second 1 and exchanges her token in second 5. *)
Lemma login_then_refresh_witness :
  Toy.refresh {| rq_refresh_token := "r1:alice" |}
    (Toy.at_ 5000) (Toy.at_ 5000) Toy.db1
  = (Return (refresh_response "a5:alice" "r1:alice"), Toy.db1).
Proof.
  apply (@login_then_refresh Toy.utils Toy.settings Toy.runtime toy_codec_sound
           (Toy.credentials "alice" "p@ss")
           {| ul_username := "alice"; ul_password := "p@ss" |}
           (Toy.at_ 1000) (Toy.at_ 1000) Toy.db0
           (login_response "a1:alice" "r1:alice" "0") Toy.db1
           "r1:alice" (Toy.at_ 5000) (Toy.at_ 5000)).
  - exact db0_unique_ids.
  - reflexivity.
  - vm_compute. reflexivity.
  - reflexivity.
  - vm_compute. eauto.
Defined.
